(** * pdf-service: the [/extract-text] upload handler

    A shallow embedding of [src/pdf-service/main.py] and the properties of
    its text-assembly contract.

    The service is a thin layer over the [pdfplumber] library.  The library
    is kept abstract (the class [PdfPlumber] below): every statement is
    proved for all implementations of its interface.  Python strings are
    sequences of Unicode code points, byte strings are sequences of bytes,
    and the handler runs in a small monad that threads the trace of
    observable effects (log records and library calls) and propagates
    exceptions. *)

From Stdlib Require Import Strings.String Strings.Ascii Init.Byte.
From stdpp Require Import base numbers list option strings gmap pretty.

Local Open Scope N_scope.

(** ** Python values *)

(** A Python [str]: the sequence of its code points. *)
Abbreviation str := (list N).

(** A Python [bytes] object. *)
Abbreviation bytes := (list byte).

(** An ASCII literal of the source as a [str]. *)
Definition lit (s : string) : str :=
  N_of_ascii <$> list_ascii_of_string s.
Arguments lit : simpl never.

(** The escape [\n]. *)
Definition NL : N := 10.

(** [len(b)] *)
Definition len (b : bytes) : N := N.of_nat (length b).

(** [c.isspace()] for one code point: the characters CPython's
    [Py_UNICODE_ISSPACE] accepts (general category Zs, or bidirectional
    class WS, B or S). *)
Definition isspace (c : N) : bool :=
  ((0x09 <=? c) && (c <=? 0x0D)) ||
  ((0x1C <=? c) && (c <=? 0x20)) ||
  (c =? 0x85) || (c =? 0xA0) || (c =? 0x1680) ||
  ((0x2000 <=? c) && (c <=? 0x200A)) ||
  (c =? 0x2028) || (c =? 0x2029) || (c =? 0x202F) ||
  (c =? 0x205F) || (c =? 0x3000).

(** [s.lstrip()] *)
Fixpoint lstrip (s : str) : str :=
  match s with
  | [] => []
  | c :: s' => if isspace c then lstrip s' else s
  end.

(** [s.rstrip()] *)
Definition rstrip (s : str) : str := reverse (lstrip (reverse s)).

(** [s.strip()] *)
Definition strip (s : str) : str := rstrip (lstrip s).

(** A string of whitespace only. *)
Abbreviation all_space := (Forall (λ c : N, isspace c = true)).

(** Truth value of a [str] in a condition: non-empty. *)
Definition truthy (s : str) : bool :=
  match s with [] => false | _ :: _ => true end.

(** Truth value of an [Optional[str]]: neither [None] nor empty. *)
Definition truthy_opt (o : option str) : bool :=
  match o with None => false | Some s => truthy s end.

(** ** Floats, as far as the handler uses them *)

(** [num/den] rounded to the nearest integer, ties to the even one. *)
Definition round_half_even (num den : N) : N :=
  let q := num / den in
  let r := num mod den in
  if 2 * r <? den then q
  else if den <? 2 * r then q + 1
  else if N.even q then q else q + 1.

(** The double nearest to the integer [n] (ties to even), given as the
    integer it denotes: [n] itself up to 53 significant bits, otherwise [n]
    rounded to its leading 53 bits. *)
Definition float_of_int (n : N) : N :=
  let k := N.size n in
  if k <=? 53 then n
  else let s := k - 53 in round_half_even n (2 ^ s) * 2 ^ s.

(** A finite non-negative float, as the exact fraction [fnum/fden]. *)
Record pyfloat := PyFloat { fnum : N; fden : N }.

(** [n / 1024] on an [int]: true division returns the double nearest to the
    quotient.  The divisor is a power of two, so only the exponent changes
    and the result is the double nearest to [n], over [1024].  ([len] of a
    [bytes] object is below [2^63], far from the overflow of the format.) *)
Definition truediv_1024 (n : N) : pyfloat :=
  {| fnum := float_of_int n; fden := 1024 |}.

(** The number of hundredths printed by the format [.2f]: the exact value
    of the float, correctly rounded to two decimals, ties to even. *)
Definition hundredths (x : pyfloat) : N :=
  round_half_even (fnum x * 100) (fden x).

(** [f"{x:.2f}"] *)
Definition format_2f (x : pyfloat) : str :=
  let h := hundredths x in
  lit (pretty (h / 100)) ++ lit "." ++
  lit (pretty (h mod 100 / 10)) ++ lit (pretty (h mod 10)).

(** ** Exceptions and the handler's monad *)

(** An exception object of a class derived from [Exception]: the name of
    its class and what [str(e)] returns.  (Interpreter exits, keyboard
    interrupts and task cancellation derive from [BaseException] only and
    are not parse errors; they are outside the model.) *)
Record exn := Exception { exn_class : string; exn_str : str }.

(** The result of evaluating an expression: a value or a raised exception. *)
Inductive outcome (A : Type) : Type :=
| Returns (a : A)
| Raises (e : exn).
Arguments Returns {A} a.
Arguments Raises {A} e.

#[global] Instance outcome_ret : MRet outcome := λ A a, Returns a.

#[global] Instance outcome_bind : MBind outcome := λ A B f m,
  match m with
  | Returns a => f a
  | Raises e => Raises e
  end.

#[global] Instance outcome_fmap : FMap outcome := λ A B f m,
  match m with
  | Returns a => Returns (f a)
  | Raises e => Raises e
  end.

Inductive level := INFO | WARNING | ERROR.

(** What a run of the handler does to the outside: the records it hands to
    the logger and its calls into the PDF library, in order. *)
Inductive event :=
| Log (lvl : level) (msg : str)
| CallOpen (contents : bytes)
| CallPages
| CallExtractText
| CallExit.

(** A computation: from the trace so far to an outcome and the extended
    trace. *)
Definition Py (A : Type) : Type := list event → outcome A * list event.

Definition ret {A} (a : A) : Py A := λ tr, (Returns a, tr).

Definition bind {A B} (m : Py A) (k : A → Py B) : Py B := λ tr,
  match m tr with
  | (Returns a, tr') => k a tr'
  | (Raises e, tr') => (Raises e, tr')
  end.

Declare Scope py_scope.
Delimit Scope py_scope with py.
Notation "x <- m ;; k" := (bind m (λ x, k))
  (at level 100, m at next level, right associativity) : py_scope.
Notation "m ;; k" := (bind m (λ _, k))
  (at level 100, right associativity) : py_scope.
Local Open Scope py_scope.

(** Record one event. *)
Definition emit (ev : event) : Py () := λ tr, (Returns (), tr ++ [ev]).

(** A call into the library: recorded, then its outcome. *)
Definition call {A} (ev : event) (r : outcome A) : Py A := λ tr, (r, tr ++ [ev]).

(** [try: body / except Exception as e: handler(e)] *)
Definition try_except {A} (body : Py A) (handler : exn → Py A) : Py A := λ tr,
  match body tr with
  | (Returns a, tr') => (Returns a, tr')
  | (Raises e, tr') => handler e tr'
  end.

(** [for x in xs: body], the loop's variables threaded as [s]. *)
Fixpoint for_each {A S} (xs : list A) (body : A → S → Py S) (s : S) : Py S :=
  match xs with
  | [] => ret s
  | x :: xs' => s' <- body x s ;; for_each xs' body s'
  end.

(** The logger is configured at level INFO: every record is emitted. *)
Definition logger_info (msg : str) : Py () := emit (Log INFO msg).
Definition logger_warning (msg : str) : Py () := emit (Log WARNING msg).
Definition logger_error (msg : str) : Py () := emit (Log ERROR msg).

(** ** The PDF library *)

(** The part of [pdfplumber] the handler uses.  [pdf_open] is
    [pdfplumber.open(io.BytesIO(contents))], [pdf_pages] the property
    [pdf.pages], [page_extract_text] the method [page.extract_text()], and
    [pdf_exit] the [__exit__] of the context manager (it closes the
    document and never swallows an exception).  Each may raise. *)
Class PdfPlumber := {
  PDF : Type;
  Page : Type;
  pdf_open : bytes → outcome PDF;
  pdf_pages : PDF → outcome (list Page);
  page_extract_text : Page → outcome (option str);
  pdf_exit : PDF → outcome ();
}.

(** The upload: [file.filename], [file.content_type] and the bytes
    [await file.read()] returns. *)
Record UploadFile := {
  filename : str;
  content_type : str;
  contents : bytes;
}.

(** The JSON object the handler returns: [{"success": True, "text": _}] or
    [{"success": False, "error": _}]. *)
Inductive Response :=
| Success (text : str)
| Failure (error : str).

Section Handler.
Context `{lib : PdfPlumber}.

(** [with pdfplumber.open(io.BytesIO(contents)) as pdf: body].  When
    [open] raises there is nothing to leave; otherwise [__exit__] runs
    however the body ends, and an exception it raises replaces the
    body's. *)
Definition with_open {A} (contents : bytes) (body : PDF → Py A) : Py A :=
  pdf <- call (CallOpen contents) (pdf_open contents) ;;
  λ tr,
    match body pdf tr with
    | (r, tr') =>
        match call CallExit (pdf_exit pdf) tr' with
        | (Returns _, tr'') => (r, tr'')
        | (Raises e', tr'') => (Raises e', tr'')
        end
    end.

(** The text returned when no page yields text. *)
Definition placeholder (file : UploadFile) (contents : bytes) : str :=
  lit "PDF Document: " ++ filename file ++ [NL; NL] ++
  lit "File Size: " ++ format_2f (truediv_1024 (len contents)) ++ lit "KB" ++
  [NL; NL] ++
  lit "This PDF appears to be image-based. Text extraction requires OCR processing.".

(** The body of the loop over [pdf.pages]: [text] grows by the page's text
    and the page separator when the page has text. *)
Definition page_step (page : Page) (text : str) : Py str :=
  page_text <- call CallExtractText (page_extract_text page) ;;
  if truthy_opt page_text
  then ret (text ++ default [] page_text ++ [NL; NL])
  else ret text.

(** [POST /extract-text] *)
Definition extract_text (file : UploadFile) : Py Response :=
  try_except
    (logger_info (lit "Processing PDF: " ++ filename file) ;;
     contents <- ret (contents file) ;;
     text <- with_open contents (λ pdf,
       pages <- call CallPages (pdf_pages pdf) ;;
       for_each pages page_step []) ;;
     if truthy (strip text) then
       logger_info (lit "Successfully extracted text from " ++ filename file) ;;
       ret (Success text)
     else
       logger_warning (lit "No text extracted from " ++ filename file ++
                       lit " - possibly image-based PDF") ;;
       ret (Success (placeholder file contents)))
    (λ e,
       logger_error (lit "Error processing PDF " ++ filename file ++
                     lit ": " ++ exn_str e) ;;
       ret (Failure (exn_str e))).

(** What the handler returned, started on trace [tr]. *)
Definition response (file : UploadFile) (tr : list event) : outcome Response :=
  (extract_text file tr).1.

(** The trace after the handler ran. *)
Definition trace_after (file : UploadFile) (tr : list event) : list event :=
  (extract_text file tr).2.

(** *** The library's answer on a byte string

    The contract the handler relies on, [extract(bytes)]: the ordered texts
    of the pages, or the exception raised on the way (by [open], by
    [pages], by the first page whose extraction fails, or by [__exit__],
    whose exception wins). *)
Definition page_texts (contents : bytes) : outcome (list (option str)) :=
  match pdf_open contents with
  | Raises e => Raises e
  | Returns pdf =>
      let body := pages ← pdf_pages pdf; mapM page_extract_text pages in
      match pdf_exit pdf with
      | Raises e' => Raises e'
      | Returns _ => body
      end
  end.

End Handler.

(** The loop of the handler on the page texts alone. *)
Definition accumulate (ts : list (option str)) (text : str) : str :=
  foldl (λ text page_text,
           if truthy_opt page_text
           then text ++ default [] page_text ++ [NL; NL]
           else text) text ts.

(** The result text in the words of the specification: the pages that have
    a non-empty text, in document order, each text followed by two
    newlines, all concatenated. *)
Definition concatenated_pages (ts : list (option str)) : str :=
  mjoin ((λ s, s ++ [NL; NL]) <$> filter (λ s, s ≠ []) (omap id ts)).

(** A page yields no text: its text is absent or empty. *)
Definition no_text (t : option str) : Prop := t = None ∨ t = Some [].

(** A page yields nothing but whitespace, or no text at all. *)
Definition blank (t : option str) : Prop :=
  ∀ s, t = Some s → all_space s.

(** A page has some character that is not whitespace. *)
Definition has_ink (t : option str) : Prop :=
  ∃ s c, t = Some s ∧ c ∈ s ∧ isspace c = false.

(** Events of the library that follow the opening of the document. *)
Definition after_open (ev : event) : Prop :=
  ev = CallPages ∨ ev = CallExtractText ∨ ev = CallExit.

(** How many times a trace opens a document. *)
Definition is_open (ev : event) : bool :=
  match ev with CallOpen _ => true | _ => false end.

Definition opens (tr : list event) : nat :=
  length (filter (λ ev, is_open ev = true) tr).

(** The records a trace hands to the logger. *)
Definition log_records (tr : list event) : list (level * str) :=
  omap (λ ev, match ev with Log l m => Some (l, m) | _ => None end) tr.

(** ** Start-up: [if __name__ == "__main__"] *)

(** A Python value of the two types [os.getenv("PORT", 8000)] can have. *)
Inductive pyval :=
| VInt (z : Z)
| VStr (s : str).

(** [os.getenv(key, default)] over the process environment. *)
Definition getenv (environ : gmap str str) (key : str) (dflt : pyval) : pyval :=
  match environ !! key with
  | Some v => VStr v
  | None => dflt
  end.

(** The arguments of [uvicorn.run(app, host=_, port=_)]. *)
Record uvicorn_run := { host : str; port : Z }.

Section Main.
(** [int(s)] on a [str]: the builtin, which raises [ValueError] on what it
    cannot read. *)
Variable int_of_str : str → outcome Z.

(** [int(v)] *)
Definition int (v : pyval) : outcome Z :=
  match v with
  | VInt z => Returns z
  | VStr s => int_of_str s
  end.

(** The start-up block: the server it runs, or the exception that ends the
    process. *)
Definition main (environ : gmap str str) : outcome uvicorn_run :=
  port ← int (getenv environ (lit "PORT") (VInt 8000));
  mret {| host := lit "0.0.0.0"; port := port |}.

End Main.

(** ** Stand-ins for running the model *)

(** A scripted library: the document is the list of what its pages answer,
    as [script] gives it for the uploaded bytes. *)
Definition scripted (script : bytes → outcome (list (outcome (option str))))
  : PdfPlumber :=
  {| PDF := list (outcome (option str));
     Page := outcome (option str);
     pdf_open := script;
     pdf_pages := Returns;
     page_extract_text := id;
     pdf_exit := λ _, Returns () |}.

(** A reading of [int] on plain numerals: ASCII digits after an optional
    sign.  (The builtin reads more: surrounding whitespace, underscores
    between digits, other decimal digits.  The theorems on [main] hold for
    every reading.) *)
Fixpoint digits_value (acc : Z) (s : str) : option Z :=
  match s with
  | [] => Some acc
  | c :: s' =>
      if (48 <=? c) && (c <=? 57)
      then digits_value (10 * acc + Z.of_N (c - 48))%Z s'
      else None
  end.

Definition int_of_numeral (s : str) : outcome Z :=
  let '(sign, ds) :=
    match s with
    | 45 :: r => ((-1)%Z, r)
    | 43 :: r => (1%Z, r)
    | _ => (1%Z, s)
    end in
  match ds, digits_value 0 ds with
  | _ :: _, Some v => Returns (sign * v)%Z
  | _, _ => Raises (Exception "ValueError"
                      (lit "invalid literal for int() with base 10"))
  end.

(** Sample uploads and documents. *)

(** An upload whose bytes start a PDF header. *)
Definition sample_upload : UploadFile :=
  {| filename := lit "report.pdf";
     content_type := lit "application/pdf";
     contents := [x25; x50; x44; x46; x2d; x31; x2e; x34] |}.

(** The same bytes under another name and declared type. *)
Definition renamed_upload : UploadFile :=
  {| filename := lit "copy.pdf";
     content_type := lit "application/octet-stream";
     contents := contents sample_upload |}.

(** The same name and bytes, another declared type. *)
Definition retyped_upload : UploadFile :=
  {| filename := filename sample_upload;
     content_type := lit "application/octet-stream";
     contents := contents sample_upload |}.

(** A zero-byte upload. *)
Definition empty_upload : UploadFile :=
  {| filename := lit "empty.pdf";
     content_type := lit "application/pdf";
     contents := [] |}.

(** Three pages: text, no text layer, text. *)
Definition text_document : PdfPlumber :=
  scripted (λ _, Returns [Returns (Some (lit "Hello")); Returns None;
                          Returns (Some (lit "World"))]).

(** One page whose text is a single space. *)
Definition space_document : PdfPlumber :=
  scripted (λ _, Returns [Returns (Some (lit " "))]).

(** Two scanned pages: one answers [None], one the empty string. *)
Definition scanned_document : PdfPlumber :=
  scripted (λ _, Returns [Returns None; Returns (Some [])]).

(** A valid document without pages. *)
Definition empty_document : PdfPlumber :=
  scripted (λ _, Returns []).

(** A document whose second page cannot be read. *)
Definition broken_document : PdfPlumber :=
  scripted (λ _, Returns [Returns (Some (lit "Hello"));
                          Raises (Exception "PDFSyntaxError"
                                    (lit "Invalid object"))]).

(** A parser that rejects inputs of less than two bytes as PDF syntax
    errors and reads one page of text from anything longer. *)
Definition strict_parser : PdfPlumber :=
  scripted (λ b,
    match b with
    | [] | [_] => Raises (Exception "PDFSyntaxError"
                            (lit "No /Root object! - Is this really a PDF?"))
    | _ => Returns [Returns (Some (lit "Hello"))]
    end).

(** A one-byte upload. *)
Definition one_byte_upload : UploadFile :=
  {| filename := lit "x.pdf";
     content_type := lit "application/pdf";
     contents := [x25] |}.

(** A library in three stages: what [open] answers, what [pages] answers
    (the pages as what each answers to [extract_text]), and what
    [__exit__] answers. *)
Definition staged (opened : outcome ())
    (listed : outcome (list (outcome (option str)))) (closed : outcome ())
  : PdfPlumber :=
  {| PDF := ();
     Page := outcome (option str);
     pdf_open := λ _, opened;
     pdf_pages := λ _, listed;
     page_extract_text := id;
     pdf_exit := λ _, closed |}.

(** Three pages, the second of which cannot be read. *)
Definition torn_document : PdfPlumber :=
  staged (Returns ())
    (Returns [Returns (Some (lit "Hello"));
              Raises (Exception "PDFSyntaxError" (lit "Invalid object"));
              Returns (Some (lit "World"))])
    (Returns ()).

(** A document whose page tree cannot be read. *)
Definition unlistable_document : PdfPlumber :=
  staged (Returns ())
    (Raises (Exception "KeyError" (lit "'Pages'")))
    (Returns ()).

(** A readable document that fails on closing. *)
Definition unclosable_document : PdfPlumber :=
  staged (Returns ())
    (Returns [Returns (Some (lit "Hello"))])
    (Raises (Exception "OSError" (lit "close failed"))).

(** The pages of [text_document] without the page that has no text, and
    with the two texts on one page. *)
Definition dense_document : PdfPlumber :=
  scripted (λ _, Returns [Returns (Some (lit "Hello")); Returns (Some (lit "World"))]).

Definition merged_document : PdfPlumber :=
  scripted (λ _, Returns [Returns (Some (lit "Hello" ++ [NL; NL] ++ lit "World"))]).

(** The first page of [dense_document], and the second. *)
Definition hello_document : PdfPlumber :=
  scripted (λ _, Returns [Returns (Some (lit "Hello"))]).

Definition world_document : PdfPlumber :=
  scripted (λ _, Returns [Returns (Some (lit "World"))]).

(** A page has text: its text is present and not empty. *)
Definition page_has_text (t : option str) : Prop := truthy_opt t = true.

(** Every page answers [extract_text]: [ts] are the answers of [pages], in
    order. *)
Definition answers `{lib : PdfPlumber} (pages : list Page)
    (ts : list (option str)) : Prop :=
  Forall2 (λ p t, page_extract_text p = Returns t) pages ts.

(** How many pages a run asks for their text: every page once, in order,
    up to and including the first whose [extract_text] raises. *)
Fixpoint pages_asked `{lib : PdfPlumber} (pages : list Page) : nat :=
  match pages with
  | [] => 0
  | page :: rest =>
      match page_extract_text page with
      | Returns _ => S (pages_asked rest)
      | Raises _ => 1
      end
  end.

(** Modelled from the spec: what the PDF library, which is not part of
    this repository, does with bytes that are not a valid PDF.  The
    specification delegates validation to the parsing capability, "which
    fails with a parse error on malformed input", counts zero-byte and
    single-byte inputs among the inputs that are not valid, and has the
    parse error carry a textual description.  [valid_pdf] is the library's
    notion of a valid document; the failure is that of [extract(bytes)],
    here [page_texts]. *)
Record rejects_invalid (lib : PdfPlumber) (valid_pdf : bytes → Prop) : Prop := {
  short_input_invalid :
    ∀ c : bytes, (length c ≤ 1)%nat → ¬ valid_pdf c;
  invalid_input_fails :
    ∀ c : bytes, ¬ valid_pdf c →
      ∃ e, @page_texts lib c = Raises e ∧ exn_str e ≠ [];
}.

(** * Properties *)

Example format_2f_128 : format_2f (truediv_1024 128) = lit "0.12".
Proof. reflexivity. Qed.

Example format_2f_384 : format_2f (truediv_1024 384) = lit "0.38".
Proof. reflexivity. Qed.

Example format_2f_2048 : format_2f (truediv_1024 2048) = lit "2.00".
Proof. reflexivity. Qed.

Example format_2f_1234567 : format_2f (truediv_1024 1234567) = lit "1205.63".
Proof. vm_compute. reflexivity. Qed.


(** ** Whitespace and [strip] *)

Lemma lstrip_all_space (s : str) : all_space s → lstrip s = [].
Proof.
  induction 1 as [|c s Hc _ IH]; simpl; [done|]. by rewrite Hc.
Qed.

Lemma lstrip_nil_inv (s : str) : lstrip s = [] → all_space s.
Proof.
  induction s as [|c s IH]; simpl; [constructor|].
  destruct (isspace c) eqn:Hc; [|done].
  intros Hs. constructor; auto.
Qed.

Lemma strip_all_space (s : str) : all_space s → strip s = [].
Proof.
  intros Hs. unfold strip, rstrip. by rewrite (lstrip_all_space s Hs).
Qed.

Lemma lstrip_space_inv (s : str) : all_space (lstrip s) → all_space s.
Proof.
  induction s as [|c s IH]; simpl; [done|].
  destruct (isspace c) eqn:Hc; [|done].
  intros Hs. constructor; auto.
Qed.

Lemma strip_nil_inv (s : str) : strip s = [] → all_space s.
Proof.
  unfold strip, rstrip. intros Hs.
  apply (f_equal reverse) in Hs. rewrite reverse_involutive in Hs.
  simpl in Hs. apply lstrip_nil_inv in Hs.
  rewrite Forall_reverse in Hs. by apply lstrip_space_inv.
Qed.

Lemma strip_nil_iff (s : str) : strip s = [] ↔ all_space s.
Proof. split; [apply strip_nil_inv | apply strip_all_space]. Qed.

Lemma truthy_strip_false (s : str) : truthy (strip s) = false ↔ all_space s.
Proof.
  rewrite <- strip_nil_iff. destruct (strip s); simpl; split; done.
Qed.

Lemma truthy_strip_true (s : str) :
  truthy (strip s) = true ↔ ∃ c, c ∈ s ∧ isspace c = false.
Proof.
  split.
  - intros Ht. destruct (decide (all_space s)) as [Hs|Hs].
    + apply truthy_strip_false in Hs. congruence.
    + apply not_Forall_Exists, Exists_exists in Hs as (c & Hc & Hn); [|apply _].
      exists c. split; [done|]. simpl in Hn. by destruct (isspace c).
  - intros (c & Hc & Hn). destruct (truthy (strip s)) eqn:Ht; [done|].
    apply truthy_strip_false in Ht.
    rewrite Forall_forall in Ht. specialize (Ht c Hc). congruence.
Qed.

(** ** The loop over the pages *)

Lemma accumulate_cons t ts text :
  accumulate (t :: ts) text =
  accumulate ts (if truthy_opt t then text ++ default [] t ++ [NL; NL] else text).
Proof. reflexivity. Qed.

Lemma accumulate_prefix ts text : accumulate ts text = text ++ accumulate ts [].
Proof.
  revert text. induction ts as [|t ts IH]; intros text.
  - simpl. by rewrite app_nil_r.
  - rewrite !accumulate_cons. destruct (truthy_opt t).
    + rewrite IH, (IH ([] ++ _)). simpl. by rewrite <- !app_assoc.
    + apply IH.
Qed.

Lemma concatenated_pages_cons t ts :
  concatenated_pages (t :: ts) =
  (if truthy_opt t then default [] t ++ [NL; NL] else []) ++ concatenated_pages ts.
Proof.
  unfold concatenated_pages. by destruct t as [[|c s]|].
Qed.

Lemma accumulate_concatenated ts : accumulate ts [] = concatenated_pages ts.
Proof.
  induction ts as [|t ts IH]; [done|].
  rewrite accumulate_cons, concatenated_pages_cons, accumulate_prefix, IH.
  by destruct (truthy_opt t).
Qed.

Lemma NL_space : all_space [NL; NL].
Proof. by repeat constructor. Qed.

Lemma accumulate_blank ts : Forall blank ts → all_space (accumulate ts []).
Proof.
  induction 1 as [|t ts Ht _ IH]; [constructor|].
  rewrite accumulate_cons, accumulate_prefix.
  apply Forall_app. split; [|done].
  destruct (truthy_opt t); [|constructor].
  destruct t as [s|]; simpl; [|apply NL_space].
  apply Forall_app. split; [by apply Ht | apply NL_space].
Qed.

Lemma accumulate_no_text ts : Forall no_text ts → accumulate ts [] = [].
Proof.
  induction 1 as [|t ts Ht _ IH]; [done|].
  rewrite accumulate_cons. by destruct Ht as [-> | ->].
Qed.

Lemma accumulate_ink ts :
  Exists has_ink ts → ∃ c, c ∈ accumulate ts [] ∧ isspace c = false.
Proof.
  induction 1 as [t ts (s & c & -> & Hc & Hn) | t ts _ (c & Hc & Hn)].
  - exists c. split; [|done].
    rewrite accumulate_cons, accumulate_prefix.
    destruct s as [|c' s]; [by apply elem_of_nil in Hc|]. simpl truthy_opt. cbv iota.
    rewrite !elem_of_app. left. right. left. exact Hc.
  - exists c. split; [|done].
    rewrite accumulate_cons, accumulate_prefix. apply elem_of_app. by right.
Qed.

Lemma no_text_blank t : no_text t → blank t.
Proof. intros [-> | ->] s Hs; [done|]. injection Hs as <-. constructor. Qed.

(** ** Runs of the handler *)

Section Runs.
Context `{lib : PdfPlumber}.

Lemma after_open_not_open ev : after_open ev → is_open ev = false.
Proof. by intros [-> | [-> | ->]]. Qed.

Lemma for_each_cons {A S} (x : A) (xs : list A) (body : A → S → Py S) s tr :
  for_each (x :: xs) body s tr =
  match body x s tr with
  | (Returns s', tr') => for_each xs body s' tr'
  | (Raises e, tr') => (Raises e, tr')
  end.
Proof. reflexivity. Qed.

Lemma page_step_run (page : Page) (text : str) (tr : list event) :
  page_step page text tr =
  match page_extract_text page with
  | Returns t =>
      (Returns (if truthy_opt t then text ++ default [] t ++ [NL; NL] else text),
       tr ++ [CallExtractText])
  | Raises e => (Raises e, tr ++ [CallExtractText])
  end.
Proof.
  unfold page_step, bind, call.
  destruct (page_extract_text page) as [t|e]; [|done]. by destruct (truthy_opt t).
Qed.

(** The loop calls [extract_text] page by page and stops at the first
    page that raises; otherwise it ends with the accumulated text. *)
Lemma for_each_page_step (pages : list Page) (text : str) (tr : list event) :
  ∃ evs,
    for_each pages page_step text tr =
      ((λ ts, accumulate ts text) <$> mapM page_extract_text pages, tr ++ evs)
    ∧ Forall after_open evs.
Proof.
  revert text tr. induction pages as [|page pages IH]; intros text tr.
  - exists []. by rewrite app_nil_r.
  - rewrite for_each_cons, page_step_run. simpl mapM.
    destruct (page_extract_text page) as [t|e] eqn:Hp; simpl.
    + destruct (IH (if truthy_opt t then text ++ default [] t ++ [NL; NL] else text)
                   (tr ++ [CallExtractText])) as (evs & -> & Hevs).
      exists (CallExtractText :: evs). split.
      * rewrite <- app_assoc. unfold mbind, outcome_bind.
        by destruct (mapM page_extract_text pages).
      * constructor; [right; by left | done].
    + exists [CallExtractText]. split; [done|].
      apply Forall_singleton. right. by left.
Qed.

(** The [with] block: what it yields is decided by [page_texts]. *)
Lemma with_open_run (c : bytes) (tr : list event) :
  ∃ evs,
    with_open c
      (λ pdf, pages <- call CallPages (pdf_pages pdf) ;;
              for_each pages page_step []) tr =
      ((λ ts, accumulate ts []) <$> page_texts c, tr ++ CallOpen c :: evs)
    ∧ Forall after_open evs.
Proof.
  unfold with_open, page_texts, bind at 1, call at 1.
  destruct (pdf_open c) as [pdf|e].
  - unfold bind at 1, call at 1.
    assert (∃ evs,
      match pdf_pages pdf with
      | Returns pages => for_each pages page_step [] ((tr ++ [CallOpen c]) ++ [CallPages])
      | Raises e => (Raises e, (tr ++ [CallOpen c]) ++ [CallPages])
      end = ((λ ts, accumulate ts []) <$>
               (pages ← pdf_pages pdf; mapM page_extract_text pages),
             tr ++ CallOpen c :: evs)
      ∧ Forall after_open evs) as (evs & -> & Hevs).
    { destruct (pdf_pages pdf) as [pages|e]; simpl.
      - destruct (for_each_page_step pages [] ((tr ++ [CallOpen c]) ++ [CallPages]))
          as (evs & -> & Hevs).
        exists (CallPages :: evs). split.
        + by rewrite <- !app_assoc.
        + constructor; [by left | done].
      - exists [CallPages]. split; [by rewrite <- app_assoc|].
        apply Forall_singleton. by left. }
    exists (evs ++ [CallExit]). split.
    + unfold call. replace ((tr ++ CallOpen c :: evs) ++ [CallExit])
        with (tr ++ CallOpen c :: evs ++ [CallExit]) by by rewrite <- app_assoc.
      destruct (pdf_exit pdf) as [[]|e']; [done|].
      by destruct (pages ← pdf_pages pdf; mapM page_extract_text pages).
    + apply Forall_app. split; [done|]. apply Forall_singleton. right. by right.
  - exists []. by split; [|constructor].
Qed.

(** A run on which the library raises: the exception is caught, logged at
    error level and turned into the failure reply. *)
Lemma extract_text_raises (file : UploadFile) (tr : list event) (e : exn) :
  page_texts (contents file) = Raises e →
  ∃ evs,
    extract_text file tr =
      (Returns (Failure (exn_str e)),
       tr ++ Log INFO (lit "Processing PDF: " ++ filename file)
          :: CallOpen (contents file)
          :: evs ++ [Log ERROR (lit "Error processing PDF " ++ filename file ++
                                lit ": " ++ exn_str e)])
    ∧ Forall after_open evs.
Proof.
  intros Hlib.
  destruct (with_open_run (contents file)
              (tr ++ [Log INFO (lit "Processing PDF: " ++ filename file)]))
    as (evs & Hrun & Hevs).
  exists evs. split; [|done].
  unfold extract_text, try_except, logger_info.
  unfold bind at 1, emit at 1. unfold bind at 1, ret at 1. unfold bind at 1.
  rewrite Hrun, Hlib. simpl.
  unfold logger_error, bind, emit, ret. by rewrite <- !app_assoc.
Qed.

(** A run on which the library answers: the reply is the accumulated text
    when stripping leaves something of it, the placeholder otherwise. *)
Lemma extract_text_returns (file : UploadFile) (tr : list event)
    (ts : list (option str)) :
  page_texts (contents file) = Returns ts →
  ∃ evs,
    extract_text file tr =
      (Returns (Success (if truthy (strip (accumulate ts []))
                         then accumulate ts []
                         else placeholder file (contents file))),
       tr ++ Log INFO (lit "Processing PDF: " ++ filename file)
          :: CallOpen (contents file)
          :: evs ++ [if truthy (strip (accumulate ts []))
                     then Log INFO (lit "Successfully extracted text from " ++
                                    filename file)
                     else Log WARNING (lit "No text extracted from " ++
                                       filename file ++
                                       lit " - possibly image-based PDF")])
    ∧ Forall after_open evs.
Proof.
  intros Hlib.
  destruct (with_open_run (contents file)
              (tr ++ [Log INFO (lit "Processing PDF: " ++ filename file)]))
    as (evs & Hrun & Hevs).
  exists evs. split; [|done].
  unfold extract_text, try_except, logger_info.
  unfold bind at 1, emit at 1. unfold bind at 1, ret at 1. unfold bind at 1.
  rewrite Hrun, Hlib. simpl.
  destruct (truthy (strip (accumulate ts []))); simpl;
    unfold logger_warning, bind, emit, ret; by rewrite <- !app_assoc.
Qed.

End Runs.

(** ** What the handler returns *)

Section Replies.
Context `{lib : PdfPlumber}.

Lemma response_raises (file : UploadFile) (tr : list event) (e : exn) :
  page_texts (contents file) = Raises e →
  response file tr = Returns (Failure (exn_str e)).
Proof.
  intros Hlib. unfold response.
  by destruct (extract_text_raises file tr e Hlib) as (evs & -> & _).
Qed.

Lemma response_returns (file : UploadFile) (tr : list event)
    (ts : list (option str)) :
  page_texts (contents file) = Returns ts →
  response file tr =
    Returns (Success (if truthy (strip (accumulate ts []))
                      then accumulate ts []
                      else placeholder file (contents file))).
Proof.
  intros Hlib. unfold response.
  by destruct (extract_text_returns file tr ts Hlib) as (evs & -> & _).
Qed.

Lemma response_text (file : UploadFile) (tr : list event)
    (ts : list (option str)) :
  page_texts (contents file) = Returns ts →
  Exists has_ink ts →
  response file tr = Returns (Success (accumulate ts [])).
Proof.
  intros Hlib Hink. rewrite (response_returns file tr ts Hlib).
  apply accumulate_ink, truthy_strip_true in Hink. by rewrite Hink.
Qed.

Lemma response_placeholder (file : UploadFile) (tr : list event)
    (ts : list (option str)) :
  page_texts (contents file) = Returns ts →
  Forall blank ts →
  response file tr = Returns (Success (placeholder file (contents file))).
Proof.
  intros Hlib Hblank. rewrite (response_returns file tr ts Hlib).
  apply accumulate_blank, truthy_strip_false in Hblank. by rewrite Hblank.
Qed.

Lemma opens_after_open (evs : list event) : Forall after_open evs → opens evs = 0%nat.
Proof.
  unfold opens. induction 1 as [|ev evs Hev _ IH]; [done|].
  rewrite filter_cons_False; [done|].
  rewrite (after_open_not_open ev Hev). done.
Qed.

Lemma opens_app (tr1 tr2 : list event) : opens (tr1 ++ tr2) = (opens tr1 + opens tr2)%nat.
Proof. unfold opens. by rewrite filter_app, length_app. Qed.

End Replies.

(** ** C1: the text of a document is its pages' texts, concatenated *)

(** Claim C1 at a document of one page whose text is a single space: the
    page's text is non-empty, yet the reply is the placeholder and not the
    concatenation [" \n\n"]. *)
Lemma nonempty_page_text_not_returned :
  @page_texts space_document (contents sample_upload) = Returns [Some (lit " ")]
  ∧ Exists (λ t, truthy_opt t = true) [Some (lit " ")]
  ∧ concatenated_pages [Some (lit " ")] = [32; NL; NL]
  ∧ @response space_document sample_upload [] ≠
      Returns (Success (concatenated_pages [Some (lit " ")])).
Proof.
  split; [reflexivity|]. split; [by constructor|]. split; [reflexivity|].
  vm_compute. discriminate.
Qed.

(** Claim C1, amended: for every PDF with at least one page whose extracted
    text has a character that is not whitespace, the reply is [Success] and
    its text is the concatenation, in document order, of each page's
    non-empty text followed by two newlines; pages with empty or absent
    text contribute nothing. *)
Theorem extract_text_concatenates_pages `{lib : PdfPlumber}
    (file : UploadFile) (tr : list event) (ts : list (option str)) :
  page_texts (contents file) = Returns ts →
  Exists has_ink ts →
  response file tr = Returns (Success (concatenated_pages ts)).
Proof.
  intros Hlib Hink. rewrite <- accumulate_concatenated.
  by apply response_text.
Qed.

Lemma extract_text_concatenates_pages_witness :
  @response text_document sample_upload [] =
    Returns (Success (lit "Hello" ++ [NL; NL] ++ lit "World" ++ [NL; NL])).
Proof.
  apply (extract_text_concatenates_pages (lib := text_document) sample_upload []
           [Some (lit "Hello"); None; Some (lit "World")]).
  - reflexivity.
  - apply Exists_cons_hd. exists (lit "Hello"), 72.
    split; [reflexivity|]. split; [|reflexivity].
    vm_compute. apply list_elem_of_here.
Defined.

(** ** C3: the placeholder for documents without text *)

(** Rounding to the nearest integer: the result is within one half of the
    quotient. *)
Lemma round_half_even_nearest (num den : N) :
  0 < den →
  2 * (round_half_even num den * den) ≤ 2 * num + den
  ∧ 2 * num ≤ 2 * (round_half_even num den * den) + den.
Proof.
  intros Hden. unfold round_half_even.
  pose proof (N.div_mod' num den) as Hdm.
  pose proof (N.mod_lt num den ltac:(lia)) as Hr.
  set (q := num / den) in *. set (r := num mod den) in *.
  destruct (N.ltb_spec (2 * r) den); [lia|].
  destruct (N.ltb_spec den (2 * r)); [lia|].
  destruct (N.even q); lia.
Qed.


(** Lengths below [2^53] are floats themselves. *)
Lemma float_of_int_exact (n : N) : n < 2 ^ 53 → float_of_int n = n.
Proof.
  intros Hn. unfold float_of_int.
  destruct (N.leb_spec (N.size n) 53) as [|Hk]; [done|].
  exfalso.
  assert (2 ^ 54 ≤ 2 ^ N.size n) as Hp by (apply N.pow_le_mono_r; lia).
  pose proof (N.size_le n) as Hs.
  rewrite N.succ_double_spec in Hs.
  change (2 ^ 54) with (2 * 2 ^ 53) in Hp. lia.
Qed.

Lemma pretty_digit (d : N) : d < 10 → lit (pretty d) = [48 + d].
Proof.
  intros Hd.
  assert (d = 0 ∨ d = 1 ∨ d = 2 ∨ d = 3 ∨ d = 4 ∨ d = 5 ∨ d = 6 ∨ d = 7 ∨
          d = 8 ∨ d = 9) as Hcases by lia.
  destruct_or!; subst d; reflexivity.
Qed.

Lemma format_2f_digits (x : pyfloat) :
  format_2f x =
    lit (pretty (hundredths x / 100)) ++ lit "." ++
    [48 + hundredths x mod 100 / 10; 48 + hundredths x mod 10].
Proof.
  unfold format_2f. cbv zeta.
  rewrite (pretty_digit (hundredths x mod 100 / 10)), (pretty_digit (hundredths x mod 10)).
  - reflexivity.
  - apply N.mod_lt. lia.
  - apply N.Div0.div_lt_upper_bound. apply N.mod_lt. lia.
Qed.

(** Claim C3: when every page yields empty or absent text, the reply is
    [Success] with the placeholder: the literal filename, the size, and the
    fixed sentence on image-based documents and OCR.  The size is printed
    with exactly two decimals, and the number printed, [h/100], is
    [len/1024] rounded to the nearest hundredth: [|h/100 - len/1024|] is at
    most [1/200].  (Lengths are below [2^53], where [len] is a float.) *)
Theorem scanned_document_placeholder `{lib : PdfPlumber}
    (file : UploadFile) (tr : list event) (ts : list (option str)) :
  page_texts (contents file) = Returns ts →
  Forall no_text ts →
  len (contents file) < 2 ^ 53 →
  ∃ h : N,
    response file tr =
      Returns (Success (
        lit "PDF Document: " ++ filename file ++ [NL; NL] ++
        lit "File Size: " ++
        lit (pretty (h / 100)) ++ lit "." ++ [48 + h mod 100 / 10; 48 + h mod 10] ++
        lit "KB" ++ [NL; NL] ++
        lit "This PDF appears to be image-based. Text extraction requires OCR processing."))
    ∧ 1024 * h ≤ 100 * len (contents file) + 512
    ∧ 100 * len (contents file) ≤ 1024 * h + 512.
Proof.
  intros Hlib Hno Hlen.
  exists (hundredths (truediv_1024 (len (contents file)))). split.
  - rewrite (response_placeholder file tr ts Hlib).
    + unfold placeholder. rewrite format_2f_digits.
      by rewrite <- !app_assoc.
    + eapply Forall_impl; [exact Hno | apply no_text_blank].
  - unfold hundredths, truediv_1024. simpl fnum. simpl fden.
    rewrite (float_of_int_exact _ Hlen).
    pose proof (round_half_even_nearest (len (contents file) * 100) 1024 ltac:(lia)).
    lia.
Qed.

Lemma scanned_document_placeholder_witness :
  ∃ h : N,
    @response scanned_document sample_upload [] =
      Returns (Success (
        lit "PDF Document: " ++ lit "report.pdf" ++ [NL; NL] ++
        lit "File Size: " ++
        lit (pretty (h / 100)) ++ lit "." ++ [48 + h mod 100 / 10; 48 + h mod 10] ++
        lit "KB" ++ [NL; NL] ++
        lit "This PDF appears to be image-based. Text extraction requires OCR processing."))
    ∧ 1024 * h ≤ 100 * 8 + 512
    ∧ 100 * 8 ≤ 1024 * h + 512.
Proof.
  apply (scanned_document_placeholder (lib := scanned_document) sample_upload []
           [None; Some []]).
  - reflexivity.
  - apply Forall_cons. split; [by left|]. apply Forall_singleton. by right.
  - reflexivity.
Defined.

(** ** C4: the text is returned as accumulated *)

Lemma lstrip_head (s : str) (c : N) : head (lstrip s) = Some c → isspace c = false.
Proof.
  induction s as [|c' s IH]; simpl; [done|].
  destruct (isspace c') eqn:Hc'; [done|].
  simpl. by intros [= <-].
Qed.

(** What [strip] returns does not end in whitespace. *)
Lemma strip_last (s : str) (c : N) : last (strip s) = Some c → isspace c = false.
Proof. unfold strip, rstrip. rewrite last_reverse. apply lstrip_head. Qed.

(** The accumulated text, when there is any, ends with the separator. *)
Lemma accumulate_last ts : accumulate ts [] ≠ [] → last (accumulate ts []) = Some NL.
Proof.
  induction ts as [|t ts IH] using rev_ind; [done|].
  unfold accumulate in *. rewrite foldl_app. simpl.
  destruct (truthy_opt t); [|done].
  intros _. rewrite !app_assoc. change [NL; NL] with ([NL] ++ [NL]).
  rewrite app_assoc. apply last_snoc.
Qed.

Lemma accumulate_not_stripped ts :
  accumulate ts [] ≠ [] → strip (accumulate ts []) ≠ accumulate ts [].
Proof.
  intros Hne Heq. pose proof (accumulate_last ts Hne) as Hlast.
  rewrite <- Heq in Hlast. by apply strip_last in Hlast.
Qed.

(** Claim C4: when the accumulated text is non-empty after stripping, the
    reply is [Success] with the accumulated text as it is; the stripped
    copy serves the test only: it differs from the accumulated text (which
    ends with the page separator) and is not what is returned. *)
Theorem accumulated_text_returned_untrimmed `{lib : PdfPlumber}
    (file : UploadFile) (tr : list event) (ts : list (option str)) :
  page_texts (contents file) = Returns ts →
  strip (accumulate ts []) ≠ [] →
  response file tr = Returns (Success (accumulate ts []))
  ∧ response file tr ≠ Returns (Success (strip (accumulate ts []))).
Proof.
  intros Hlib Hne.
  assert (response file tr = Returns (Success (accumulate ts []))) as Hr.
  { rewrite (response_returns file tr ts Hlib).
    by destruct (strip (accumulate ts [])). }
  split; [done|]. rewrite Hr. intros [= Heq].
  apply (accumulate_not_stripped ts); [|done].
  intros Hnil. rewrite Hnil in Hne. by apply Hne.
Qed.

Lemma accumulated_text_returned_untrimmed_witness :
  @response text_document sample_upload [] =
    Returns (Success (lit "Hello" ++ [NL; NL] ++ lit "World" ++ [NL; NL]))
  ∧ @response text_document sample_upload [] ≠
    Returns (Success (lit "Hello" ++ [NL; NL] ++ lit "World")).
Proof.
  apply (accumulated_text_returned_untrimmed (lib := text_document) sample_upload []
           [Some (lit "Hello"); None; Some (lit "World")]).
  - reflexivity.
  - vm_compute. discriminate.
Defined.

(** ** C7: the reply is a function of the bytes and the filename *)

(** Claim C7: two invocations on the same bytes and the same filename give
    the same reply, whatever was logged before each of them and whatever
    else the uploads carry. *)
Theorem same_upload_same_reply `{lib : PdfPlumber}
    (f1 f2 : UploadFile) (tr1 tr2 : list event) :
  contents f1 = contents f2 →
  filename f1 = filename f2 →
  response f1 tr1 = response f2 tr2.
Proof.
  intros Hc Hn.
  destruct (page_texts (contents f1)) as [ts|e] eqn:Hlib.
  - rewrite (response_returns f1 tr1 ts Hlib).
    rewrite Hc in Hlib. rewrite (response_returns f2 tr2 ts Hlib).
    unfold placeholder. by rewrite Hc, Hn.
  - rewrite (response_raises f1 tr1 e Hlib).
    rewrite Hc in Hlib. by rewrite (response_raises f2 tr2 e Hlib).
Qed.

Lemma same_upload_same_reply_witness :
  @response text_document sample_upload [] =
  @response text_document retyped_upload
    (@trace_after text_document sample_upload []).
Proof.
  apply (same_upload_same_reply (lib := text_document)); reflexivity.
Defined.

(** ** C8: the port and the bind address *)

(** Claim C8: the server is started on host [0.0.0.0], all interfaces,
    whatever the environment; its port is [8000] when [PORT] is unset and
    [int] of the value of [PORT] when it is set; no other variable of the
    environment matters. *)
Theorem port_from_environment (int_of_str : str → outcome Z) :
  (∀ environ : gmap str str,
     environ !! lit "PORT" = None →
     main int_of_str environ = Returns {| host := lit "0.0.0.0"; port := 8000 |})
  ∧ (∀ (environ : gmap str str) (v : str),
       environ !! lit "PORT" = Some v →
       main int_of_str environ =
         (λ p, {| host := lit "0.0.0.0"; port := p |}) <$> int_of_str v)
  ∧ (∀ environ1 environ2 : gmap str str,
       environ1 !! lit "PORT" = environ2 !! lit "PORT" →
       main int_of_str environ1 = main int_of_str environ2)
  ∧ (∀ (environ : gmap str str) (run : uvicorn_run),
       main int_of_str environ = Returns run → host run = lit "0.0.0.0").
Proof.
  repeat split.
  - intros environ Hunset. unfold main, getenv. by rewrite Hunset.
  - intros environ v Hset. unfold main, getenv. rewrite Hset. simpl.
    by destruct (int_of_str v).
  - intros environ1 environ2 Hsame. unfold main, getenv. by rewrite Hsame.
  - intros environ run. unfold main.
    destruct (int int_of_str _) as [p|e]; simpl; [|done].
    by intros [= <-].
Qed.

Lemma port_from_environment_witness :
  main int_of_numeral ∅ = Returns {| host := lit "0.0.0.0"; port := 8000 |}
  ∧ main int_of_numeral {[ lit "PORT" := lit "8080" ]} =
      Returns {| host := lit "0.0.0.0"; port := 8080 |}
  ∧ main int_of_numeral {[ lit "HOST" := lit "127.0.0.1" ]} = main int_of_numeral ∅.
Proof.
  destruct (port_from_environment int_of_numeral) as (Hunset & Hset & Hsame & _).
  split; [|split].
  - apply Hunset. reflexivity.
  - apply (Hset _ (lit "8080")). reflexivity.
  - apply Hsame. reflexivity.
Defined.

(** ** C9: pages of whitespace only *)




(** ** C10: where the filename shows *)

(** In the placeholder the filename does show: for the same bytes, two
    placeholders are equal only if the filenames are. *)
Lemma placeholder_shows_filename (f1 f2 : UploadFile) (c : bytes) :
  placeholder f1 c = placeholder f2 c → filename f1 = filename f2.
Proof.
  unfold placeholder. intros Heq.
  apply app_inv_head in Heq. by apply app_inv_tail in Heq.
Qed.

(** Claim C10: for the same bytes, the reply does not depend on the
    filename whenever the library fails or some page has a character that
    is not whitespace: two uploads of these bytes under any two filenames
    get the same reply. *)
Theorem reply_ignores_filename `{lib : PdfPlumber}
    (f1 f2 : UploadFile) (tr1 tr2 : list event) :
  contents f1 = contents f2 →
  (∃ e, page_texts (contents f1) = Raises e)
  ∨ (∃ ts, page_texts (contents f1) = Returns ts ∧ Exists has_ink ts) →
  response f1 tr1 = response f2 tr2.
Proof.
  intros Hc [(e & Hlib) | (ts & Hlib & Hink)].
  - rewrite (response_raises f1 tr1 e Hlib).
    rewrite Hc in Hlib. by rewrite (response_raises f2 tr2 e Hlib).
  - rewrite (response_text f1 tr1 ts Hlib Hink).
    rewrite Hc in Hlib. by rewrite (response_text f2 tr2 ts Hlib Hink).
Qed.

Lemma reply_ignores_filename_witness :
  @response text_document sample_upload [] =
    @response text_document renamed_upload []
  ∧ @response broken_document sample_upload [] =
    @response broken_document renamed_upload [].
Proof.
  split.
  - apply (reply_ignores_filename (lib := text_document)); [reflexivity|].
    right. exists [Some (lit "Hello"); None; Some (lit "World")].
    split; [reflexivity|].
    apply Exists_cons_hd. exists (lit "Hello"), 72.
    split; [reflexivity|]. split; [|reflexivity].
    vm_compute. apply list_elem_of_here.
  - apply (reply_ignores_filename (lib := broken_document)); [reflexivity|].
    left. eexists. reflexivity.
Defined.

(** ** Calls into the library, step by step *)

Section Calls.
Context `{lib : PdfPlumber}.

Lemma for_each_readable (pages : list Page) (ts : list (option str))
    (text : str) (tr : list event) :
  answers pages ts →
  for_each pages page_step text tr =
    (Returns (accumulate ts text),
     tr ++ replicate (length pages) CallExtractText).
Proof.
  intros Hall. revert text tr. unfold answers in Hall.
  induction Hall as [|page t pages ts Hp _ IH]; intros text tr.
  - simpl. by rewrite app_nil_r.
  - rewrite for_each_cons, page_step_run, Hp, IH, accumulate_cons.
    by rewrite <- app_assoc.
Qed.

Lemma for_each_unreadable (before after : list Page) (page : Page)
    (ts : list (option str)) (e : exn) (text : str) (tr : list event) :
  answers before ts →
  page_extract_text page = Raises e →
  for_each (before ++ page :: after) page_step text tr =
    (Raises e, tr ++ replicate (S (length before)) CallExtractText).
Proof.
  intros Hall Hp. revert text tr. unfold answers in Hall.
  induction Hall as [|page' t pages ts Hp' _ IH]; intros text tr.
  - simpl app. by rewrite for_each_cons, page_step_run, Hp.
  - simpl app. rewrite for_each_cons, page_step_run, Hp', IH.
    by rewrite <- app_assoc.
Qed.

Lemma with_open_opened {A} (c : bytes) (pdf : PDF) (body : PDF → Py A)
    (tr : list event) :
  pdf_open c = Returns pdf →
  with_open c body tr =
    match pdf_exit pdf with
    | Returns _ => ((body pdf (tr ++ [CallOpen c])).1,
                    (body pdf (tr ++ [CallOpen c])).2 ++ [CallExit])
    | Raises e' => (Raises e', (body pdf (tr ++ [CallOpen c])).2 ++ [CallExit])
    end.
Proof.
  intros Hopen. unfold with_open, bind at 1, call at 1. rewrite Hopen.
  destruct (body pdf (tr ++ [CallOpen c])) as [r tr']. unfold call. simpl.
  by destruct (pdf_exit pdf).
Qed.

Lemma with_open_refused {A} (c : bytes) (e : exn) (body : PDF → Py A)
    (tr : list event) :
  pdf_open c = Raises e →
  with_open c body tr = (Raises e, tr ++ [CallOpen c]).
Proof.
  intros Hopen. unfold with_open, bind at 1, call at 1. by rewrite Hopen.
Qed.

(** The handler around its [with] block. *)
Lemma extract_text_around_with (file : UploadFile) (tr : list event) :
  extract_text file tr =
    match with_open (contents file)
            (λ pdf, pages <- call CallPages (pdf_pages pdf) ;;
                    for_each pages page_step [])
            (tr ++ [Log INFO (lit "Processing PDF: " ++ filename file)]) with
    | (Returns text, tr') =>
        if truthy (strip text)
        then (Returns (Success text),
              tr' ++ [Log INFO (lit "Successfully extracted text from " ++
                                filename file)])
        else (Returns (Success (placeholder file (contents file))),
              tr' ++ [Log WARNING (lit "No text extracted from " ++
                                   filename file ++
                                   lit " - possibly image-based PDF")])
    | (Raises e, tr') =>
        (Returns (Failure (exn_str e)),
         tr' ++ [Log ERROR (lit "Error processing PDF " ++ filename file ++
                            lit ": " ++ exn_str e)])
    end.
Proof.
  unfold extract_text, try_except, logger_info.
  unfold bind at 1, emit at 1. unfold bind at 1, ret at 1. unfold bind at 1.
  destruct (with_open _ _ _) as [[text|e] tr']; [|done].
  by destruct (truthy (strip text)).
Qed.

(** The body of the [with] block on a document whose pages all answer. *)
Lemma body_readable (pdf : PDF) (pages : list Page) (ts : list (option str))
    (tr : list event) :
  pdf_pages pdf = Returns pages →
  answers pages ts →
  (pages <- call CallPages (pdf_pages pdf) ;; for_each pages page_step []) tr =
    (Returns (accumulate ts []),
     tr ++ CallPages :: replicate (length pages) CallExtractText).
Proof.
  intros Hpages Hall. unfold bind, call. rewrite Hpages.
  rewrite (for_each_readable pages ts [] _ Hall). by rewrite <- app_assoc.
Qed.

(** The body on a document with a page that raises. *)
Lemma body_unreadable (pdf : PDF) (before after : list Page) (page : Page)
    (ts : list (option str)) (e : exn) (tr : list event) :
  pdf_pages pdf = Returns (before ++ page :: after) →
  answers before ts →
  page_extract_text page = Raises e →
  (pages <- call CallPages (pdf_pages pdf) ;; for_each pages page_step []) tr =
    (Raises e, tr ++ CallPages :: replicate (S (length before)) CallExtractText).
Proof.
  intros Hpages Hall Hpage. unfold bind, call. rewrite Hpages.
  rewrite (for_each_unreadable before after page ts e [] _ Hall Hpage).
  by rewrite <- app_assoc.
Qed.

(** The body on a document whose page list raises. *)
Lemma body_unlistable (pdf : PDF) (e : exn) (tr : list event) :
  pdf_pages pdf = Raises e →
  (pages <- call CallPages (pdf_pages pdf) ;; for_each pages page_step []) tr =
    (Raises e, tr ++ [CallPages]).
Proof. intros Hpages. unfold bind, call. by rewrite Hpages. Qed.

End Calls.

(** ** C2: a failure of the library is caught and reported *)

Section Failures.
Context `{lib : PdfPlumber}.

(** The loop asks [pages_asked] pages, whatever it ends with. *)
Lemma for_each_asks (pages : list Page) (text : str) (tr : list event) :
  (for_each pages page_step text tr).2 =
    tr ++ replicate (pages_asked pages) CallExtractText.
Proof.
  revert text tr. induction pages as [|page pages IH]; intros text tr.
  - simpl. by rewrite app_nil_r.
  - rewrite for_each_cons, page_step_run. simpl pages_asked.
    destruct (page_extract_text page) as [t|e]; [|done].
    rewrite IH. by rewrite <- app_assoc.
Qed.

(** The calls of the [with] block after [open] returned [pdf]. *)
Lemma with_open_calls (c : bytes) (pdf : PDF) (tr : list event) :
  pdf_open c = Returns pdf →
  (with_open c
     (λ pdf, pages <- call CallPages (pdf_pages pdf) ;;
             for_each pages page_step []) tr).2 =
    tr ++ [CallOpen c; CallPages] ++
          replicate (match pdf_pages pdf with
                     | Returns pages => pages_asked pages
                     | Raises _ => 0%nat
                     end) CallExtractText ++
          [CallExit].
Proof.
  intros Hopen. rewrite (with_open_opened c pdf _ tr Hopen).
  assert (((pages <- call CallPages (pdf_pages pdf) ;;
            for_each pages page_step []) (tr ++ [CallOpen c])).2 =
          tr ++ [CallOpen c; CallPages] ++
            replicate (match pdf_pages pdf with
                       | Returns pages => pages_asked pages
                       | Raises _ => 0%nat
                       end) CallExtractText) as ->.
  { unfold bind, call. destruct (pdf_pages pdf) as [pages|e].
    - rewrite for_each_asks. by rewrite <- !app_assoc.
    - cbn [snd replicate]. by rewrite <- !app_assoc. }
  destruct (pdf_exit pdf); cbn [snd]; by rewrite <- !app_assoc.
Qed.

(** When the library raises, so does the [with] block. *)
Lemma with_open_raises (c : bytes) (e : exn) (tr : list event) :
  page_texts c = Raises e →
  (with_open c
     (λ pdf, pages <- call CallPages (pdf_pages pdf) ;;
             for_each pages page_step []) tr).1 = Raises e.
Proof.
  intros Hlib. destruct (with_open_run c tr) as (evs & -> & _).
  by rewrite Hlib.
Qed.

End Failures.

(** Claim C2: whenever the library fails on the upload, at whatever point,
    the handler returns (it does not raise) the [Failure] reply that
    carries [str(e)], and none of the text accumulated before the failure
    is in the reply.  Nothing is tried again: the run is the start record,
    one call to [open] and, when the document opened, one read of
    [pdf.pages], one [extract_text] per page up to and including the first
    page that raises, and one [__exit__]; then the error record with the
    filename and the message, and nothing after it.  This holds also when
    it is [__exit__] that raises. *)
Theorem parse_failure_is_reported `{lib : PdfPlumber}
    (file : UploadFile) (tr : list event) (e : exn) :
  page_texts (contents file) = Raises e →
  response file tr = Returns (Failure (exn_str e))
  ∧ trace_after file tr =
      tr ++ [Log INFO (lit "Processing PDF: " ++ filename file);
             CallOpen (contents file)] ++
            match pdf_open (contents file) with
            | Raises _ => []
            | Returns pdf =>
                [CallPages] ++
                replicate (match pdf_pages pdf with
                           | Returns pages => pages_asked pages
                           | Raises _ => 0%nat
                           end) CallExtractText ++
                [CallExit]
            end ++
            [Log ERROR (lit "Error processing PDF " ++ filename file ++
                        lit ": " ++ exn_str e)]
  ∧ opens (drop (length tr) (trace_after file tr)) = 1%nat.
Proof.
  intros Hlib.
  assert (trace_after file tr =
      tr ++ [Log INFO (lit "Processing PDF: " ++ filename file);
             CallOpen (contents file)] ++
            match pdf_open (contents file) with
            | Raises _ => []
            | Returns pdf =>
                [CallPages] ++
                replicate (match pdf_pages pdf with
                           | Returns pages => pages_asked pages
                           | Raises _ => 0%nat
                           end) CallExtractText ++
                [CallExit]
            end ++
            [Log ERROR (lit "Error processing PDF " ++ filename file ++
                        lit ": " ++ exn_str e)]) as Htrace.
  { unfold trace_after. rewrite extract_text_around_with.
    pose proof (with_open_raises (contents file) e
                  (tr ++ [Log INFO (lit "Processing PDF: " ++ filename file)]) Hlib)
      as Hfst.
    destruct (pdf_open (contents file)) as [pdf|e0] eqn:Hopen.
    - pose proof (with_open_calls (contents file) pdf
                    (tr ++ [Log INFO (lit "Processing PDF: " ++ filename file)]) Hopen)
        as Hsnd.
      destruct (with_open _ _ _) as [r tr']. cbn [fst snd] in *. subst r tr'.
      cbn [snd]. by rewrite <- !app_assoc.
    - rewrite (with_open_refused _ e0 _ _ Hopen) in *. cbn [fst snd] in *.
      injection Hfst as ->. by rewrite <- !app_assoc. }
  split; [by apply response_raises|]. split; [exact Htrace|].
  rewrite Htrace, drop_app_length.
  change (?a :: ?b :: nil) with ([a] ++ [b]).
  rewrite !opens_app.
  assert (∀ evs, Forall after_open evs → opens evs = 0%nat) as Hnone.
  { intros evs Hevs. by apply opens_after_open. }
  destruct (pdf_open (contents file)) as [pdf|e0]; [|reflexivity].
  rewrite !opens_app.
  rewrite (Hnone (replicate _ CallExtractText)).
  - reflexivity.
  - apply Forall_replicate. right. by left.
Qed.

Lemma parse_failure_is_reported_witness :
  (@response broken_document sample_upload [] =
     Returns (Failure (lit "Invalid object"))
   ∧ @trace_after broken_document sample_upload [] =
       [] ++ [Log INFO (lit "Processing PDF: " ++ lit "report.pdf");
              CallOpen (contents sample_upload)] ++
             ([CallPages] ++ replicate 2 CallExtractText ++ [CallExit]) ++
             [Log ERROR (lit "Error processing PDF " ++ lit "report.pdf" ++
                         lit ": " ++ lit "Invalid object")]
   ∧ opens (drop 0 (@trace_after broken_document sample_upload [])) = 1%nat)
  ∧ (@response unclosable_document sample_upload [] =
       Returns (Failure (lit "close failed"))
     ∧ @trace_after unclosable_document sample_upload [] =
         [] ++ [Log INFO (lit "Processing PDF: " ++ lit "report.pdf");
                CallOpen (contents sample_upload)] ++
               ([CallPages] ++ replicate 1 CallExtractText ++ [CallExit]) ++
               [Log ERROR (lit "Error processing PDF " ++ lit "report.pdf" ++
                           lit ": " ++ lit "close failed")]
     ∧ opens (drop 0 (@trace_after unclosable_document sample_upload [])) = 1%nat).
Proof.
  split.
  - apply (parse_failure_is_reported (lib := broken_document) sample_upload []
             (Exception "PDFSyntaxError" (lit "Invalid object"))).
    reflexivity.
  - apply (parse_failure_is_reported (lib := unclosable_document) sample_upload []
             (Exception "OSError" (lit "close failed"))).
    reflexivity.
Defined.

(** ** C5: a document without pages *)

(** The placeholder, character by character: the filename, the size with
    two decimals, the fixed sentence.  For lengths below [2^53] the
    hundredths [h] printed are those nearest to [len/1024]. *)
Lemma placeholder_spelled (file : UploadFile) (c : bytes) :
  ∃ h : N,
    placeholder file c =
      lit "PDF Document: " ++ filename file ++ [NL; NL] ++
      lit "File Size: " ++
      lit (pretty (h / 100)) ++ lit "." ++ [48 + h mod 100 / 10; 48 + h mod 10] ++
      lit "KB" ++ [NL; NL] ++
      lit "This PDF appears to be image-based. Text extraction requires OCR processing."
    ∧ (len c < 2 ^ 53 →
       1024 * h ≤ 100 * len c + 512 ∧ 100 * len c ≤ 1024 * h + 512).
Proof.
  exists (hundredths (truediv_1024 (len c))). split.
  - unfold placeholder. rewrite format_2f_digits. by rewrite <- !app_assoc.
  - intros Hlen. unfold hundredths, truediv_1024. cbn [fnum fden].
    rewrite (float_of_int_exact _ Hlen).
    pose proof (round_half_even_nearest (len c * 100) 1024 ltac:(lia)).
    lia.
Qed.

(** Claim C5: a valid PDF with zero pages gets the placeholder reply:
    [Success] with the text that names the file, gives its size in
    kibibytes with two decimals (for lengths below [2^53], [len/1024]
    rounded to the nearest hundredth) and ends with the fixed sentence on
    image-based documents.  It is the very reply given for this upload by
    any document whose pages all yield empty or absent text. *)
Theorem zero_pages_like_no_text `{lib : PdfPlumber}
    (file : UploadFile) (tr : list event) :
  page_texts (contents file) = Returns [] →
  ∃ h : N,
    response file tr =
      Returns (Success (
        lit "PDF Document: " ++ filename file ++ [NL; NL] ++
        lit "File Size: " ++
        lit (pretty (h / 100)) ++ lit "." ++ [48 + h mod 100 / 10; 48 + h mod 10] ++
        lit "KB" ++ [NL; NL] ++
        lit "This PDF appears to be image-based. Text extraction requires OCR processing."))
    ∧ (len (contents file) < 2 ^ 53 →
       1024 * h ≤ 100 * len (contents file) + 512
       ∧ 100 * len (contents file) ≤ 1024 * h + 512)
    ∧ ∀ (lib' : PdfPlumber) (tr' : list event) (ts : list (option str)),
        @page_texts lib' (contents file) = Returns ts →
        Forall no_text ts →
        @response lib' file tr' = @response lib file tr.
Proof.
  intros Hlib.
  assert (response file tr = Returns (Success (placeholder file (contents file))))
    as Hr by (by apply (response_placeholder file tr [])).
  destruct (placeholder_spelled file (contents file)) as (h & Hspelled & Hh).
  exists h. split; [by rewrite Hr, Hspelled|]. split; [exact Hh|].
  intros lib' tr' ts Hlib' Hno. rewrite Hr.
  apply (response_placeholder (lib := lib') file tr' ts Hlib').
  eapply Forall_impl; [exact Hno | apply no_text_blank].
Qed.

Lemma zero_pages_like_no_text_witness :
  ∃ h : N,
    @response empty_document sample_upload [] =
      Returns (Success (
        lit "PDF Document: " ++ lit "report.pdf" ++ [NL; NL] ++
        lit "File Size: " ++
        lit (pretty (h / 100)) ++ lit "." ++ [48 + h mod 100 / 10; 48 + h mod 10] ++
        lit "KB" ++ [NL; NL] ++
        lit "This PDF appears to be image-based. Text extraction requires OCR processing."))
    ∧ (8 < 2 ^ 53 → 1024 * h ≤ 100 * 8 + 512 ∧ 100 * 8 ≤ 1024 * h + 512)
    ∧ ∀ (lib' : PdfPlumber) (tr' : list event) (ts : list (option str)),
        @page_texts lib' (contents sample_upload) = Returns ts →
        Forall no_text ts →
        @response lib' sample_upload tr' = @response empty_document sample_upload [].
Proof.
  apply (zero_pages_like_no_text (lib := empty_document) sample_upload []).
  reflexivity.
Defined.

(** ** C6: bytes that are not a valid PDF *)

(** [strict_parser] keeps the contract, with the documents of two bytes or
    more as the valid ones. *)
Lemma strict_parser_rejects_invalid :
  rejects_invalid strict_parser (λ c, (2 ≤ length c)%nat).
Proof.
  split.
  - intros c Hshort Hvalid. lia.
  - intros c Hinvalid.
    exists (Exception "PDFSyntaxError"
              (lit "No /Root object! - Is this really a PDF?")).
    split; [|by vm_compute].
    destruct c as [|b [|b' c]]; [reflexivity | reflexivity |].
    exfalso. apply Hinvalid. simpl. lia.
Qed.

(** Claim C6: for every zero-byte or single-byte input, and every byte
    sequence that is not a valid PDF, the handler does not crash: it
    returns the [Failure] reply, and its error message is not empty.  The
    library is taken to validate its input as the specification says
    ([rejects_invalid]); the handler adds that the failure is caught and
    its description returned as it is. *)
Theorem invalid_bytes_surface_as_failure `{lib : PdfPlumber}
    (valid_pdf : bytes → Prop) (file : UploadFile) (tr : list event) :
  rejects_invalid lib valid_pdf →
  (length (contents file) ≤ 1)%nat ∨ ¬ valid_pdf (contents file) →
  ∃ msg, response file tr = Returns (Failure msg) ∧ msg ≠ [].
Proof.
  intros [Hshort Hfails] Hinput.
  assert (¬ valid_pdf (contents file)) as Hinvalid.
  { destruct Hinput as [Hlen | Hinvalid]; [by apply Hshort | done]. }
  destruct (Hfails (contents file) Hinvalid) as (e & Hlib & Hmsg).
  exists (exn_str e). split; [by apply response_raises | done].
Qed.

Lemma invalid_bytes_surface_as_failure_witness :
  (∃ msg, @response strict_parser empty_upload [] = Returns (Failure msg)
          ∧ msg ≠ [])
  ∧ (∃ msg, @response strict_parser one_byte_upload [] = Returns (Failure msg)
            ∧ msg ≠ []).
Proof.
  split.
  - apply (invalid_bytes_surface_as_failure (lib := strict_parser)
             (λ c, (2 ≤ length c)%nat) empty_upload []).
    + exact strict_parser_rejects_invalid.
    + left. simpl. lia.
  - apply (invalid_bytes_surface_as_failure (lib := strict_parser)
             (λ c, (2 ≤ length c)%nat) one_byte_upload []).
    + exact strict_parser_rejects_invalid.
    + left. simpl. lia.
Defined.

(** * Further properties of the handler *)

(** ** X1: the calls made on a readable document *)

(** On a document that opens, lists its pages, answers on every page and
    closes, the handler logs the start, opens the document once, reads the
    page list once, calls [extract_text] once per page (textless pages
    included), leaves the [with] block once, and only then logs the
    outcome: a success record when the text is returned, a warning when the
    placeholder is. *)
Theorem calls_on_readable_document `{lib : PdfPlumber}
    (file : UploadFile) (tr : list event) (pdf : PDF) (pages : list Page)
    (ts : list (option str)) :
  pdf_open (contents file) = Returns pdf →
  pdf_pages pdf = Returns pages →
  answers pages ts →
  pdf_exit pdf = Returns () →
  trace_after file tr =
    tr ++ [Log INFO (lit "Processing PDF: " ++ filename file);
           CallOpen (contents file); CallPages] ++
          replicate (length pages) CallExtractText ++
          [CallExit;
           if truthy (strip (accumulate ts []))
           then Log INFO (lit "Successfully extracted text from " ++ filename file)
           else Log WARNING (lit "No text extracted from " ++ filename file ++
                             lit " - possibly image-based PDF")].
Proof.
  intros Hopen Hpages Hall Hexit. unfold trace_after.
  rewrite extract_text_around_with, (with_open_opened _ pdf _ _ Hopen), Hexit.
  rewrite (body_readable pdf pages ts _ Hpages Hall). cbn [fst snd].
  destruct (truthy (strip (accumulate ts []))); cbn [snd];
    by rewrite <- !app_assoc.
Qed.

Lemma calls_on_readable_document_witness :
  @trace_after text_document sample_upload [] =
    [] ++ [Log INFO (lit "Processing PDF: " ++ lit "report.pdf");
           CallOpen (contents sample_upload); CallPages] ++
          replicate 3 CallExtractText ++
          [CallExit;
           Log INFO (lit "Successfully extracted text from " ++ lit "report.pdf")].
Proof.
  apply (calls_on_readable_document (lib := text_document) sample_upload []
           [Returns (Some (lit "Hello")); Returns None; Returns (Some (lit "World"))]
           [Returns (Some (lit "Hello")); Returns None; Returns (Some (lit "World"))]
           [Some (lit "Hello"); None; Some (lit "World")]).
  - reflexivity.
  - reflexivity.
  - repeat (apply Forall2_cons; split; [reflexivity|]). apply Forall2_nil_2.
  - reflexivity.
Defined.

(** ** X2: the first page that cannot be read ends the loop *)

(** When [extract_text] raises on a page, after the pages before it
    answered, the pages after it are never asked: there is one call per page
    up to and including the failing one.  The document is still closed, the
    text read so far is dropped, and the reply is [Failure] with the
    description of the page's exception. *)
Theorem unreadable_page_ends_loop `{lib : PdfPlumber}
    (file : UploadFile) (tr : list event) (pdf : PDF)
    (before after : list Page) (page : Page) (ts : list (option str)) (e : exn) :
  pdf_open (contents file) = Returns pdf →
  pdf_pages pdf = Returns (before ++ page :: after) →
  answers before ts →
  page_extract_text page = Raises e →
  pdf_exit pdf = Returns () →
  response file tr = Returns (Failure (exn_str e))
  ∧ trace_after file tr =
      tr ++ [Log INFO (lit "Processing PDF: " ++ filename file);
             CallOpen (contents file); CallPages] ++
            replicate (S (length before)) CallExtractText ++
            [CallExit;
             Log ERROR (lit "Error processing PDF " ++ filename file ++
                        lit ": " ++ exn_str e)].
Proof.
  intros Hopen Hpages Hall Hpage Hexit. unfold response, trace_after.
  rewrite extract_text_around_with, (with_open_opened _ pdf _ _ Hopen), Hexit.
  rewrite (body_unreadable pdf before after page ts e _ Hpages Hall Hpage).
  cbn [fst snd]. split; [done|]. by rewrite <- !app_assoc.
Qed.

Lemma unreadable_page_ends_loop_witness :
  @response torn_document sample_upload [] =
    Returns (Failure (lit "Invalid object"))
  ∧ @trace_after torn_document sample_upload [] =
      [] ++ [Log INFO (lit "Processing PDF: " ++ lit "report.pdf");
             CallOpen (contents sample_upload); CallPages] ++
            replicate 2 CallExtractText ++
            [CallExit;
             Log ERROR (lit "Error processing PDF " ++ lit "report.pdf" ++
                        lit ": " ++ lit "Invalid object")].
Proof.
  apply (unreadable_page_ends_loop (lib := torn_document) sample_upload [] ()
           [Returns (Some (lit "Hello"))] [Returns (Some (lit "World"))]
           (Raises (Exception "PDFSyntaxError" (lit "Invalid object")))
           [Some (lit "Hello")]
           (Exception "PDFSyntaxError" (lit "Invalid object"))).
  - reflexivity.
  - reflexivity.
  - apply Forall2_cons. split; [reflexivity|]. apply Forall2_nil_2.
  - reflexivity.
  - reflexivity.
Defined.

(** ** X3: a document that does not open *)

(** When [pdfplumber.open] raises, nothing else of the library is called:
    no page list, no page, and no [__exit__], since the [with] block was
    never entered.  The run is the start record, the call to [open] and
    the error record, and the reply is [Failure]. *)
Theorem refused_document_is_not_touched `{lib : PdfPlumber}
    (file : UploadFile) (tr : list event) (e : exn) :
  pdf_open (contents file) = Raises e →
  response file tr = Returns (Failure (exn_str e))
  ∧ trace_after file tr =
      tr ++ [Log INFO (lit "Processing PDF: " ++ filename file);
             CallOpen (contents file);
             Log ERROR (lit "Error processing PDF " ++ filename file ++
                        lit ": " ++ exn_str e)].
Proof.
  intros Hopen. unfold response, trace_after.
  rewrite extract_text_around_with, (with_open_refused _ e _ _ Hopen).
  split; [done|]. cbn [snd]. by rewrite <- !app_assoc.
Qed.

Lemma refused_document_is_not_touched_witness :
  @response strict_parser empty_upload [] =
    Returns (Failure (lit "No /Root object! - Is this really a PDF?"))
  ∧ @trace_after strict_parser empty_upload [] =
      [] ++ [Log INFO (lit "Processing PDF: " ++ lit "empty.pdf");
             CallOpen [];
             Log ERROR (lit "Error processing PDF " ++ lit "empty.pdf" ++
                        lit ": " ++ lit "No /Root object! - Is this really a PDF?")].
Proof.
  apply (refused_document_is_not_touched (lib := strict_parser) empty_upload []
           (Exception "PDFSyntaxError"
              (lit "No /Root object! - Is this really a PDF?"))).
  reflexivity.
Defined.

(** ** X4: a failure on closing the document *)

(** When [__exit__] raises, the reply is [Failure] with the description of
    that exception, whatever happened inside the [with] block: text
    extracted from every page is dropped, and an exception raised by the
    block itself is replaced. *)
Theorem failure_on_closing_wins `{lib : PdfPlumber}
    (file : UploadFile) (tr : list event) (pdf : PDF) (e : exn) :
  pdf_open (contents file) = Returns pdf →
  pdf_exit pdf = Raises e →
  response file tr = Returns (Failure (exn_str e))
  ∧ last (trace_after file tr) =
      Some (Log ERROR (lit "Error processing PDF " ++ filename file ++
                       lit ": " ++ exn_str e)).
Proof.
  intros Hopen Hexit. unfold response, trace_after.
  rewrite extract_text_around_with, (with_open_opened _ pdf _ _ Hopen), Hexit.
  split; [done|]. cbn [snd]. apply last_snoc.
Qed.

Lemma failure_on_closing_wins_witness :
  @response unclosable_document sample_upload [] =
    Returns (Failure (lit "close failed"))
  ∧ last (@trace_after unclosable_document sample_upload []) =
      Some (Log ERROR (lit "Error processing PDF " ++ lit "report.pdf" ++
                       lit ": " ++ lit "close failed")).
Proof.
  apply (failure_on_closing_wins (lib := unclosable_document) sample_upload [] ()
           (Exception "OSError" (lit "close failed"))); reflexivity.
Defined.

(** ** X5: a document whose page list cannot be read *)

(** When the property [pdf.pages] raises, no page is asked for its text,
    the document is closed, and the reply is [Failure] with the
    description of the exception. *)
Theorem unlistable_pages_fail `{lib : PdfPlumber}
    (file : UploadFile) (tr : list event) (pdf : PDF) (e : exn) :
  pdf_open (contents file) = Returns pdf →
  pdf_pages pdf = Raises e →
  pdf_exit pdf = Returns () →
  response file tr = Returns (Failure (exn_str e))
  ∧ trace_after file tr =
      tr ++ [Log INFO (lit "Processing PDF: " ++ filename file);
             CallOpen (contents file); CallPages; CallExit;
             Log ERROR (lit "Error processing PDF " ++ filename file ++
                        lit ": " ++ exn_str e)].
Proof.
  intros Hopen Hpages Hexit. unfold response, trace_after.
  rewrite extract_text_around_with, (with_open_opened _ pdf _ _ Hopen), Hexit.
  rewrite (body_unlistable pdf e _ Hpages).
  cbn [fst snd]. split; [done|]. by rewrite <- !app_assoc.
Qed.

Lemma unlistable_pages_fail_witness :
  @response unlistable_document sample_upload [] =
    Returns (Failure (lit "'Pages'"))
  ∧ @trace_after unlistable_document sample_upload [] =
      [] ++ [Log INFO (lit "Processing PDF: " ++ lit "report.pdf");
             CallOpen (contents sample_upload); CallPages; CallExit;
             Log ERROR (lit "Error processing PDF " ++ lit "report.pdf" ++
                        lit ": " ++ lit "'Pages'")].
Proof.
  apply (unlistable_pages_fail (lib := unlistable_document) sample_upload [] ()
           (Exception "KeyError" (lit "'Pages'"))); reflexivity.
Defined.

(** ** X6: the two log records of a run *)

Lemma log_records_after_open (evs : list event) :
  Forall after_open evs → log_records evs = [].
Proof.
  unfold log_records. induction 1 as [|ev evs Hev _ IH]; [done|].
  by destruct Hev as [-> | [-> | ->]].
Qed.

Lemma log_records_run (start : str) (c : bytes) (evs : list event) (final : event) :
  Forall after_open evs →
  log_records (Log INFO start :: CallOpen c :: evs ++ [final]) =
    (INFO, start) :: log_records [final].
Proof.
  intros Hevs. change (Log INFO start :: CallOpen c :: evs ++ [final])
    with ([Log INFO start; CallOpen c] ++ evs ++ [final]).
  unfold log_records. rewrite !omap_app.
  fold (log_records evs). by rewrite (log_records_after_open evs Hevs).
Qed.

(** A run only appends to the trace and hands the logger exactly two
    records, each with the filename: first the start record at level INFO,
    last the outcome record, whose level goes with the reply.  When the
    library raises: ERROR with the error message, and the [Failure] reply.
    When some page has a character that is not whitespace: INFO, and the
    reply with the pages' text.  When all pages are blank: WARNING, and
    the placeholder reply. *)
Theorem run_logs_start_and_outcome `{lib : PdfPlumber}
    (file : UploadFile) (tr : list event) :
  (∀ e, page_texts (contents file) = Raises e →
     response file tr = Returns (Failure (exn_str e))
     ∧ ∃ evs, trace_after file tr = tr ++ evs
         ∧ log_records evs =
             [(INFO, lit "Processing PDF: " ++ filename file);
              (ERROR, lit "Error processing PDF " ++ filename file ++
                      lit ": " ++ exn_str e)])
  ∧ (∀ ts, page_texts (contents file) = Returns ts →
       Exists has_ink ts →
       response file tr = Returns (Success (concatenated_pages ts))
       ∧ ∃ evs, trace_after file tr = tr ++ evs
           ∧ log_records evs =
               [(INFO, lit "Processing PDF: " ++ filename file);
                (INFO, lit "Successfully extracted text from " ++ filename file)])
  ∧ (∀ ts, page_texts (contents file) = Returns ts →
       Forall blank ts →
       (∃ h : N,
          response file tr =
            Returns (Success (
              lit "PDF Document: " ++ filename file ++ [NL; NL] ++
              lit "File Size: " ++
              lit (pretty (h / 100)) ++ lit "." ++
              [48 + h mod 100 / 10; 48 + h mod 10] ++
              lit "KB" ++ [NL; NL] ++
              lit "This PDF appears to be image-based. Text extraction requires OCR processing.")))
       ∧ ∃ evs, trace_after file tr = tr ++ evs
           ∧ log_records evs =
               [(INFO, lit "Processing PDF: " ++ filename file);
                (WARNING, lit "No text extracted from " ++ filename file ++
                          lit " - possibly image-based PDF")]).
Proof.
  split; [|split].
  - intros e Hlib. split; [by apply response_raises|].
    unfold trace_after.
    destruct (extract_text_raises file tr e Hlib) as (evs & -> & Hevs).
    eexists. split; [reflexivity|]. by rewrite (log_records_run _ _ _ _ Hevs).
  - intros ts Hlib Hink. split.
    { rewrite <- accumulate_concatenated. by apply response_text. }
    unfold trace_after.
    destruct (extract_text_returns file tr ts Hlib) as (evs & -> & Hevs).
    apply accumulate_ink, truthy_strip_true in Hink. rewrite Hink.
    eexists. split; [reflexivity|]. by rewrite (log_records_run _ _ _ _ Hevs).
  - intros ts Hlib Hblank. split.
    { destruct (placeholder_spelled file (contents file)) as (h & Hspelled & _).
      exists h. rewrite <- Hspelled. by apply (response_placeholder file tr ts). }
    unfold trace_after.
    destruct (extract_text_returns file tr ts Hlib) as (evs & -> & Hevs).
    apply accumulate_blank, truthy_strip_false in Hblank. rewrite Hblank.
    eexists. split; [reflexivity|]. by rewrite (log_records_run _ _ _ _ Hevs).
Qed.

Lemma run_logs_start_and_outcome_witness :
  (∃ evs, @trace_after broken_document sample_upload [] = [] ++ evs
      ∧ log_records evs =
          [(INFO, lit "Processing PDF: " ++ lit "report.pdf");
           (ERROR, lit "Error processing PDF " ++ lit "report.pdf" ++
                   lit ": " ++ lit "Invalid object")])
  ∧ (∃ evs, @trace_after text_document sample_upload [] = [] ++ evs
      ∧ log_records evs =
          [(INFO, lit "Processing PDF: " ++ lit "report.pdf");
           (INFO, lit "Successfully extracted text from " ++ lit "report.pdf")])
  ∧ (∃ evs, @trace_after space_document sample_upload [] = [] ++ evs
      ∧ log_records evs =
          [(INFO, lit "Processing PDF: " ++ lit "report.pdf");
           (WARNING, lit "No text extracted from " ++ lit "report.pdf" ++
                     lit " - possibly image-based PDF")]).
Proof.
  split; [|split].
  - destruct (run_logs_start_and_outcome (lib := broken_document) sample_upload [])
      as (Hraises & _ & _).
    apply (Hraises (Exception "PDFSyntaxError" (lit "Invalid object"))).
    reflexivity.
  - destruct (run_logs_start_and_outcome (lib := text_document) sample_upload [])
      as (_ & Hink & _).
    apply (Hink [Some (lit "Hello"); None; Some (lit "World")]); [reflexivity|].
    apply Exists_cons_hd. exists (lit "Hello"), 72.
    split; [reflexivity|]. split; [|reflexivity].
    vm_compute. apply list_elem_of_here.
  - destruct (run_logs_start_and_outcome (lib := space_document) sample_upload [])
      as (_ & _ & Hblank).
    apply (Hblank [Some (lit " ")]); [reflexivity|].
    apply Forall_singleton. intros s [= <-]. by apply Forall_singleton.
Defined.

(** ** X7: a successful reply is never blank *)

(** Whenever the reply is [Success], its text has a character that is not
    whitespace: an accumulated text is only returned when stripping leaves
    something, and the placeholder has its fixed wording. *)
Theorem success_text_not_blank `{lib : PdfPlumber}
    (file : UploadFile) (tr : list event) (text : str) :
  response file tr = Returns (Success text) →
  ∃ c, c ∈ text ∧ isspace c = false.
Proof.
  destruct (page_texts (contents file)) as [ts|e] eqn:Hlib.
  - rewrite (response_returns file tr ts Hlib).
    destruct (truthy (strip (accumulate ts []))) eqn:Hs; intros [= <-].
    + by apply truthy_strip_true.
    + exists 80. split; [|done]. unfold placeholder.
      change (lit "PDF Document: ") with (80 :: lit "DF Document: ").
      apply list_elem_of_here.
  - by rewrite (response_raises file tr e Hlib).
Qed.

Lemma success_text_not_blank_witness :
  ∃ c, c ∈ lit "Hello" ++ [NL; NL] ++ lit "World" ++ [NL; NL]
       ∧ isspace c = false.
Proof.
  apply (success_text_not_blank (lib := text_document) sample_upload []).
  reflexivity.
Defined.

(** ** X8: a returned text ends with the page separator *)

Lemma accumulate_ends ts :
  accumulate ts [] ≠ [] → ∃ body, accumulate ts [] = body ++ [NL; NL].
Proof.
  induction ts as [|t ts IH] using rev_ind; [done|].
  unfold accumulate in *. rewrite foldl_app. simpl.
  destruct (truthy_opt t); [|done].
  intros _. eexists. by rewrite app_assoc.
Qed.

(** When some page has a character that is not whitespace, the text of the
    reply ends with two newlines: the separator also follows the last page
    with text, and nothing is trimmed. *)
Theorem returned_text_ends_with_separator `{lib : PdfPlumber}
    (file : UploadFile) (tr : list event) (ts : list (option str)) :
  page_texts (contents file) = Returns ts →
  Exists has_ink ts →
  ∃ body, response file tr = Returns (Success (body ++ [NL; NL])).
Proof.
  intros Hlib Hink. rewrite (response_text file tr ts Hlib Hink).
  destruct (accumulate_ends ts) as [body ->]; [|by exists body].
  apply accumulate_ink in Hink as (c & Hc & _).
  intros Hnil. rewrite Hnil in Hc. by apply elem_of_nil in Hc.
Qed.

Lemma returned_text_ends_with_separator_witness :
  ∃ body, @response text_document sample_upload [] =
            Returns (Success (body ++ [NL; NL])).
Proof.
  apply (returned_text_ends_with_separator (lib := text_document) sample_upload []
           [Some (lit "Hello"); None; Some (lit "World")]).
  - reflexivity.
  - apply Exists_cons_hd. exists (lit "Hello"), 72.
    split; [reflexivity|]. split; [|reflexivity].
    vm_compute. apply list_elem_of_here.
Defined.

(** ** X9: the text of two documents joined *)

Lemma accumulate_app ts1 ts2 :
  accumulate (ts1 ++ ts2) [] = accumulate ts1 [] ++ accumulate ts2 [].
Proof.
  unfold accumulate at 1. rewrite foldl_app.
  fold (accumulate ts1 []). fold (accumulate ts2 (accumulate ts1 [])).
  apply accumulate_prefix.
Qed.

(** The text of a document whose pages are those of a first document
    followed by those of a second is the text of the first followed by the
    text of the second (each of the two having some character that is not
    whitespace, so that each gets its text as reply). *)
Theorem text_of_joined_documents (first second joined : PdfPlumber)
    (file : UploadFile) (tr : list event) (ts1 ts2 : list (option str)) :
  @page_texts first (contents file) = Returns ts1 →
  @page_texts second (contents file) = Returns ts2 →
  @page_texts joined (contents file) = Returns (ts1 ++ ts2) →
  Exists has_ink ts1 →
  Exists has_ink ts2 →
  ∃ text1 text2,
    @response first file tr = Returns (Success text1)
    ∧ @response second file tr = Returns (Success text2)
    ∧ @response joined file tr = Returns (Success (text1 ++ text2)).
Proof.
  intros H1 H2 H12 Hink1 Hink2.
  exists (accumulate ts1 []), (accumulate ts2 []).
  split; [by apply (response_text (lib := first))|].
  split; [by apply (response_text (lib := second))|].
  rewrite <- accumulate_app. apply (response_text (lib := joined)); [done|].
  apply Exists_app. by left.
Qed.

Lemma text_of_joined_documents_witness :
  ∃ text1 text2,
    @response hello_document sample_upload [] = Returns (Success text1)
    ∧ @response world_document sample_upload [] = Returns (Success text2)
    ∧ @response dense_document sample_upload [] = Returns (Success (text1 ++ text2)).
Proof.
  apply (text_of_joined_documents hello_document world_document dense_document
           sample_upload [] [Some (lit "Hello")] [Some (lit "World")]).
  - reflexivity.
  - reflexivity.
  - reflexivity.
  - apply Exists_cons_hd. exists (lit "Hello"), 72.
    split; [reflexivity|]. split; [|reflexivity].
    vm_compute. apply list_elem_of_here.
  - apply Exists_cons_hd. exists (lit "World"), 87.
    split; [reflexivity|]. split; [|reflexivity].
    vm_compute. apply list_elem_of_here.
Defined.

(** ** X10: page boundaries are not kept *)

(** Two consecutive pages with non-empty texts [s1] and [s2] get the same
    reply as the single page with text [s1 \n\n s2] in their place: the
    reply does not tell where a page ends. *)
Theorem page_boundary_not_recoverable (split merged : PdfPlumber)
    (file : UploadFile) (tr : list event)
    (before after : list (option str)) (s1 s2 : str) :
  s1 ≠ [] →
  s2 ≠ [] →
  @page_texts split (contents file) =
    Returns (before ++ [Some s1; Some s2] ++ after) →
  @page_texts merged (contents file) =
    Returns (before ++ [Some (s1 ++ [NL; NL] ++ s2)] ++ after) →
  @response split file tr = @response merged file tr.
Proof.
  intros Hs1 Hs2 Hsplit Hmerged.
  rewrite (response_returns (lib := split) file tr _ Hsplit).
  rewrite (response_returns (lib := merged) file tr _ Hmerged).
  assert (accumulate (before ++ [Some s1; Some s2] ++ after) [] =
          accumulate (before ++ [Some (s1 ++ [NL; NL] ++ s2)] ++ after) []) as ->.
  { rewrite !accumulate_app. f_equal. f_equal.
    destruct s1 as [|c1 s1]; [done|]. destruct s2 as [|c2 s2]; [done|].
    unfold accumulate. simpl. by rewrite <- !app_assoc. }
  done.
Qed.

Lemma page_boundary_not_recoverable_witness :
  @response dense_document sample_upload [] =
  @response merged_document sample_upload [].
Proof.
  apply (page_boundary_not_recoverable dense_document merged_document
           sample_upload [] [] [] (lit "Hello") (lit "World")).
  - vm_compute. discriminate.
  - vm_compute. discriminate.
  - reflexivity.
  - reflexivity.
Defined.

(** ** X11: pages without text leave no mark *)

Lemma accumulate_filter ts text :
  accumulate (filter page_has_text ts) text = accumulate ts text.
Proof.
  revert text. induction ts as [|t ts IH]; intros text; [done|].
  rewrite accumulate_cons. unfold page_has_text at 1.
  destruct (truthy_opt t) eqn:Ht.
  - rewrite filter_cons_True by done. by rewrite accumulate_cons, Ht, IH.
  - rewrite filter_cons_False by (unfold page_has_text; congruence). apply IH.
Qed.

(** Two documents that agree on their pages with text, in order, get the
    same reply for the same upload, wherever pages with absent or empty
    text lie between them; an absent text and an empty one count alike. *)
Theorem textless_pages_leave_no_mark (lib1 lib2 : PdfPlumber)
    (file : UploadFile) (tr : list event) (ts1 ts2 : list (option str)) :
  @page_texts lib1 (contents file) = Returns ts1 →
  @page_texts lib2 (contents file) = Returns ts2 →
  filter page_has_text ts1 = filter page_has_text ts2 →
  @response lib1 file tr = @response lib2 file tr.
Proof.
  intros H1 H2 Hsame.
  rewrite (response_returns (lib := lib1) file tr _ H1).
  rewrite (response_returns (lib := lib2) file tr _ H2).
  by rewrite <- (accumulate_filter ts1), <- (accumulate_filter ts2), Hsame.
Qed.

Lemma textless_pages_leave_no_mark_witness :
  @response text_document sample_upload [] =
  @response dense_document sample_upload [].
Proof.
  apply (textless_pages_leave_no_mark text_document dense_document
           sample_upload [] [Some (lit "Hello"); None; Some (lit "World")]
           [Some (lit "Hello"); Some (lit "World")]); reflexivity.
Defined.

(** ** X12: halves in the printed size *)



(** ** X13: the placeholder tells the filename *)

(** For the same bytes of a document whose pages are all blank, two
    uploads get the same reply exactly when their filenames are equal: in
    the placeholder, and only there, the filename can be read off the
    reply. *)
Theorem placeholder_reply_tells_filename `{lib : PdfPlumber}
    (f1 f2 : UploadFile) (tr1 tr2 : list event) (ts : list (option str)) :
  contents f1 = contents f2 →
  page_texts (contents f1) = Returns ts →
  Forall blank ts →
  response f1 tr1 = response f2 tr2 ↔ filename f1 = filename f2.
Proof.
  intros Hc Hlib Hblank.
  rewrite (response_placeholder f1 tr1 ts Hlib Hblank).
  rewrite Hc in Hlib. rewrite (response_placeholder f2 tr2 ts Hlib Hblank).
  rewrite Hc. split.
  - intros Heq. apply (placeholder_shows_filename f1 f2 (contents f2)).
    congruence.
  - intros Hn. unfold placeholder. by rewrite Hn.
Qed.

Lemma placeholder_reply_tells_filename_witness :
  @response scanned_document sample_upload [] =
  @response scanned_document retyped_upload []
  ↔ filename sample_upload = filename retyped_upload.
Proof.
  apply (placeholder_reply_tells_filename (lib := scanned_document)
           sample_upload retyped_upload [] [] [None; Some []]).
  - reflexivity.
  - reflexivity.
  - apply Forall_cons. split; [by intros s|].
    apply Forall_singleton. intros s [= <-]. constructor.
Defined.

(** ** X14: the placeholder uses the bytes only for their number *)

(** Two uploads with the same filename and the same number of bytes get
    the same reply whenever both documents have blank pages only, whatever
    the bytes are and however many pages each has. *)
Theorem placeholder_reply_from_name_and_size (lib1 lib2 : PdfPlumber)
    (f1 f2 : UploadFile) (tr1 tr2 : list event) (ts1 ts2 : list (option str)) :
  filename f1 = filename f2 →
  length (contents f1) = length (contents f2) →
  @page_texts lib1 (contents f1) = Returns ts1 →
  @page_texts lib2 (contents f2) = Returns ts2 →
  Forall blank ts1 →
  Forall blank ts2 →
  @response lib1 f1 tr1 = @response lib2 f2 tr2.
Proof.
  intros Hn Hlen H1 H2 Hb1 Hb2.
  rewrite (response_placeholder (lib := lib1) f1 tr1 ts1 H1 Hb1).
  rewrite (response_placeholder (lib := lib2) f2 tr2 ts2 H2 Hb2).
  unfold placeholder, len. by rewrite Hn, Hlen.
Qed.

Lemma placeholder_reply_from_name_and_size_witness :
  @response scanned_document sample_upload [] =
  @response space_document
    {| filename := lit "report.pdf";
       content_type := lit "application/pdf";
       contents := [x00; x01; x02; x03; x04; x05; x06; x07] |} [].
Proof.
  apply (placeholder_reply_from_name_and_size scanned_document space_document
           sample_upload _ [] [] [None; Some []] [Some (lit " ")]).
  - reflexivity.
  - reflexivity.
  - reflexivity.
  - reflexivity.
  - apply Forall_cons. split; [by intros s|].
    apply Forall_singleton. intros s [= <-]. constructor.
  - apply Forall_singleton. intros s [= <-]. by apply Forall_singleton.
Defined.
